(** * Boilerplate generators of c2rust-refactor/gen: a shallow embedding

    The Python modules [util.py], [ast_deref.py], [ast_names.py] and
    [list_node_ids.py] turn a list of AST declarations into the text of Rust
    trait implementations.  Each module is embedded below as a Rocq module of
    the same name; Python generators decorated with [linewise] become lists
    of lines that are joined with a newline, attribute dictionaries become
    finite maps, and raised exceptions become the [Raise] case of [result]. *)

From Stdlib Require Import Ascii DecimalString.
From stdpp Require Import gmap strings list.

(** ** Python values used by the generators *)

(** Exceptions the embedded code can raise: [raise ValueError(msg)] and the
    [IndexError] of a list subscript out of range. *)
Inductive exn : Type :=
  | ValueError (msg : string)
  | IndexError.

Inductive result (A : Type) : Type :=
  | Ok (a : A)
  | Raise (e : exn).
Arguments Ok {A} a.
Arguments Raise {A} e.

#[global] Instance result_bind : MBind result := λ A B k r,
  match r with
  | Ok a => k a
  | Raise e => Raise e
  end.

(** A [for] loop whose body may raise and that yields a batch of items per
    iteration: the batches are collected in order, the first exception ends
    the loop. *)
Fixpoint for_yield {A B : Type} (body : A → result (list B)) (xs : list A)
  : result (list B) :=
  match xs with
  | [] => Ok []
  | x :: rest =>
      ys ← body x;
      zs ← for_yield body rest;
      Ok (ys ++ zs)
  end.

(** [sep.join(xs)] *)
Fixpoint join (sep : string) (xs : list string) : string :=
  match xs with
  | [] => EmptyString
  | x :: rest =>
      match rest with
      | [] => x
      | _ :: _ => x +:+ sep +:+ join sep rest
      end
  end.

Definition newline : string := String "010"%char EmptyString.
Definition dquote : string := String "034"%char EmptyString.

(** The text [%d] prints for a length. *)
Definition format_d (n : nat) : string := NilEmpty.string_of_uint (Nat.to_uint n).

(** Truthiness of a value that is [None] or a string, as tested by
    [if kind_field := ...]. *)
Definition truthy (o : option string) : bool :=
  match o with
  | None => false
  | Some EmptyString => false
  | Some (String _ _) => true
  end.

(** ** The declaration model

    The records of [ast.py], which is not among the sources; only the
    attributes the generators read are kept. *)

(** Modelled from the spec: a field of [ast.py], with its [name] and its
    [attrs], a mapping from attribute name to optional value. *)
Module Field.
Record t : Type := Build { name : string; attrs : gmap string (option string) }.
End Field.

(** Modelled from the spec: a struct declaration of [ast.py], with ordered
    [fields] and the flag [is_tuple]; also the shape of an enum case. *)
Module Struct.
Record t : Type := Build
  { name : string;
    fields : list Field.t;
    is_tuple : bool;
    attrs : gmap string (option string) }.
End Struct.

(** Modelled from the spec: an enum declaration of [ast.py], with its
    ordered [variants], each shaped like a struct. *)
Module Enum.
Record t : Type := Build
  { name : string;
    variants : list Struct.t;
    attrs : gmap string (option string) }.
End Enum.

(** Modelled from the spec: any other declaration kind of [ast.py] (an
    opaque or primitive type), of which the generators read [name] and
    [attrs] only. *)
Module Opaque.
Record t : Type := Build { name : string; attrs : gmap string (option string) }.
End Opaque.

(** Modelled from the spec: a declaration is a struct, an enum or of
    another kind; [isinstance] tests become matches on the constructor. *)
Inductive Decl : Type :=
  | DStruct (s : Struct.t)
  | DEnum (e : Enum.t)
  | DOpaque (o : Opaque.t).

(** [d.name] and [d.attrs] on any declaration. *)
Definition decl_name (d : Decl) : string :=
  match d with
  | DStruct s => Struct.name s
  | DEnum e => Enum.name e
  | DOpaque o => Opaque.name o
  end.

Definition decl_attrs (d : Decl) : gmap string (option string) :=
  match d with
  | DStruct s => Struct.attrs s
  | DEnum e => Enum.attrs e
  | DOpaque o => Opaque.attrs o
  end.

(** [key in attrs] *)
Definition has_attr (key : string) (attrs : gmap string (option string)) : bool :=
  bool_decide (is_Some (attrs !! key)).

(** [attrs.get(key)]: the stored value, [None] for a missing key. *)
Definition attr_get (key : string) (attrs : gmap string (option string))
  : option string :=
  match attrs !! key with
  | Some v => v
  | None => None
  end.

(** Modelled from the spec: [variants_paths] of [ast.py], which is not among
    the sources.  A struct yields the single pair of itself and its name; an
    enum yields, for every case in declaration order, the case and the
    declaration name joined to the case name by a double colon.  The spec
    lists no pair for any other declaration. *)
Definition variants_paths (d : Decl) : list (Struct.t * string) :=
  match d with
  | DStruct s => [(s, Struct.name s)]
  | DEnum e => (λ c, (c, Enum.name e +:+ "::" +:+ Struct.name c)) <$> Enum.variants e
  | DOpaque _ => []
  end.

(** ** util.py *)

Module Util.

(** The decorator [linewise]. *)
Definition linewise (lines : list string) : string := join newline lines.

(** The decorator [comma_sep]. *)
Definition comma_sep (items : list string) : string := join ", " items.

(** The decorator [wordwise]. *)
Definition wordwise (items : list string) : string := join " " items.

Definition struct_fields (fields : list Field.t) (suffix bind_mode : string)
  : string :=
  comma_sep
    ((λ f, Field.name f +:+ ": " +:+ bind_mode +:+ Field.name f +:+ suffix)
       <$> fields).

Definition tuple_fields (fields : list Field.t) (suffix bind_mode : string)
  : string :=
  comma_sep ((λ f, bind_mode +:+ Field.name f +:+ suffix) <$> fields).

Definition struct_pattern (s : Struct.t) (path suffix bind_mode : string)
  : string :=
  if negb (Struct.is_tuple s) then
    path +:+ " { " +:+ struct_fields (Struct.fields s) suffix bind_mode +:+ " }"
  else if Nat.eqb (length (Struct.fields s)) 0 then
    path
  else
    path +:+ "(" +:+ tuple_fields (Struct.fields s) suffix bind_mode +:+ ")".

(** The default arguments [suffix=''] and [bind_mode='ref ']. *)
Definition default_suffix : string := EmptyString.
Definition default_bind_mode : string := "ref ".

Definition struct_pattern_default (s : Struct.t) (path : string) : string :=
  struct_pattern s path default_suffix default_bind_mode.

(** A character the class [[A-Z]] of [CAPS_RE] matches. *)
Definition is_cap (c : ascii) : bool :=
  Nat.leb 65 (nat_of_ascii c) && Nat.leb (nat_of_ascii c) 90.

(** [m.group().lower()] for a matched capital. *)
Definition lower (c : ascii) : ascii := ascii_of_nat (nat_of_ascii c + 32).

(** [CAPS_RE.sub(lambda m: f'_{m.group().lower()}', s)]: every capital is
    replaced by an underscore and its lower-case letter. *)
Fixpoint caps_sub (s : string) : string :=
  match s with
  | EmptyString => EmptyString
  | String c rest =>
      if is_cap c then String "_" (String (lower c) (caps_sub rest))
      else String c (caps_sub rest)
  end.

Definition snake (s : string) : string :=
  let s := caps_sub s in
  match s with
  | String "_" rest => rest
  | _ => s
  end.

(** [[f.name for f in s.fields if 'kind' in f.attrs]] *)
Definition marked_fields (s : Struct.t) : list string :=
  Field.name <$> filter (λ f, has_attr "kind" (Field.attrs f) = true) (Struct.fields s).

Definition ambiguous_message (s : Struct.t) : string :=
  "struct " +:+ Struct.name s +:+ " has " +:+ format_d (length (marked_fields s))
    +:+ " fields marked #[kind] (expected 0 or 1)".

Definition find_kind_field (s : Struct.t) : result (option string) :=
  if has_attr "no_kind" (Struct.attrs s) then Ok None
  else
    let marked := marked_fields s in
    if Nat.eqb (length marked) 1 then
      match marked !! 0%nat with
      | Some x => Ok (Some x)
      | None => Raise IndexError
      end
    else if Nat.ltb 1 (length marked) then
      Raise (ValueError (ambiguous_message s))
    else
      Ok (head (Field.name <$> filter (λ f, Field.name f = "kind") (Struct.fields s))).

End Util.

(** ** textwrap.indent

    Strings are sequences of characters with code points below 256; the
    line boundaries of [str.splitlines] and the white space of [str.isspace]
    are the ones Python has in that range. *)

Module Textwrap.

Definition CR : ascii := "013"%char.
Definition LF : ascii := "010"%char.

Definition is_line_boundary (c : ascii) : bool :=
  existsb (Ascii.eqb c)
    ["010"; "011"; "012"; "013"; "028"; "029"; "030"; "133"]%char.

Definition isspace_char (c : ascii) : bool :=
  existsb (Ascii.eqb c)
    ["009"; "010"; "011"; "012"; "013"; "028"; "029"; "030"; "031";
     "032"; "133"; "160"]%char.

(** [not line.strip()]: the line holds white space only. *)
Fixpoint is_blank (s : string) : bool :=
  match s with
  | EmptyString => true
  | String c rest => isspace_char c && is_blank rest
  end.

(** [text.splitlines(True)]; [cur] is the line read so far.  A carriage
    return directly followed by a line feed ends one line, not two. *)
Fixpoint splitlines_keepends (cur text : string) : list string :=
  match text with
  | EmptyString =>
      match cur with
      | EmptyString => []
      | String _ _ => [cur]
      end
  | String c rest =>
      if Ascii.eqb c CR then
        match rest with
        | String c' rest' =>
            if Ascii.eqb c' LF then
              (cur +:+ String CR (String LF EmptyString))
                :: splitlines_keepends EmptyString rest'
            else
              (cur +:+ String CR EmptyString) :: splitlines_keepends EmptyString rest
        | EmptyString => [cur +:+ String CR EmptyString]
        end
      else if is_line_boundary c then
        (cur +:+ String c EmptyString) :: splitlines_keepends EmptyString rest
      else
        splitlines_keepends (cur +:+ String c EmptyString) rest
  end.

(** [indent(text, prefix)] with the default predicate: every line that
    is not white space only gets the prefix. *)
Definition indent (text prefix : string) : string :=
  join EmptyString
    ((λ line, if is_blank line then line else prefix +:+ line)
       <$> splitlines_keepends EmptyString text).

End Textwrap.

(** The banner every generator starts with; [now] is the text of
    [datetime.now()] at the time of the run. *)
Definition banner (now : string) : list string :=
  [ "// AUTOMATICALLY GENERATED - DO NOT EDIT";
    "// Produced " +:+ now +:+ " by process_ast.py";
    EmptyString ].

(** [isinstance(d, (Struct, Enum))] *)
Definition is_struct_or_enum (d : Decl) : bool :=
  match d with
  | DStruct _ | DEnum _ => true
  | DOpaque _ => false
  end.

(** ** ast_deref.py *)

Module AstDeref.

Definition do_ast_deref_impl_lines (d : Decl) : list string :=
  let supported := has_attr "rewrite_seq_item" (decl_attrs d) in
  [ "#[allow(unused)]";
    "impl AstDeref for " +:+ decl_name d +:+ " {";
    "  type Target = Self;";
    "  fn ast_deref(&self) -> &Self { self }";
    "}" ].

Definition do_ast_deref_impl (d : Decl) : string :=
  Util.linewise (do_ast_deref_impl_lines d).

Definition generate (now : string) (decls : list Decl) : string :=
  Util.linewise (banner now ++ (do_ast_deref_impl <$> decls)).

End AstDeref.

(** ** ast_names.py *)

Module AstNames.

(** The lines one iteration of the loop over [variants_paths(d)] yields.
    The kind field is looked up on the declaration [d] itself, and only
    under the test [isinstance(d, (Struct))]. *)
Definition arm_lines (d : Decl) (vp : Struct.t * string) : result (list string) :=
  let '(v, path) := vp in
  let opening :=
    [ "      &" +:+ Util.struct_pattern_default v path +:+ " => {";
      "        " +:+ dquote +:+ Struct.name v +:+ dquote +:+ ".to_string()" ] in
  kind_lines ←
    match d with
    | DStruct s =>
        kind_field ← Util.find_kind_field s;
        Ok (if truthy kind_field then
              [ "        + " +:+ dquote +:+ ":" +:+ dquote +:+ " + &self."
                  +:+ default EmptyString kind_field +:+ ".ast_name()" ]
            else [])
    | _ => Ok []
    end;
  Ok (opening ++ kind_lines ++ [ "      }" ]).

Definition do_ast_names_impl_lines (d : Decl) : result (list string) :=
  if negb (is_struct_or_enum d) then Ok []
  else
    arms ← for_yield (arm_lines d) (variants_paths d);
    Ok ([ "#[allow(unused, non_shorthand_field_patterns)]";
          "impl AstName for " +:+ decl_name d +:+ " {";
          "  fn ast_name(&self) -> String {";
          "    match self {" ]
          ++ arms
          ++ [ "    }"; "  }"; "}" ]).

Definition do_ast_names_impl (d : Decl) : result string :=
  lines ← do_ast_names_impl_lines d;
  Ok (Util.linewise lines).

Definition generate (now : string) (decls : list Decl) : result string :=
  blocks ← for_yield (λ d, block ← do_ast_names_impl d; Ok [block]) decls;
  Ok (Util.linewise (banner now ++ blocks)).

End AstNames.

(** ** list_node_ids.py *)

Module ListNodeIds.

Definition call_line (arg : string) : string :=
  "    ListNodeIds::add_node_ids(" +:+ arg +:+ ", node_id_list);".

Definition arm_lines (vp : Struct.t * string) : list string :=
  let '(v, path) := vp in
  ([ "  &" +:+ Util.struct_pattern_default v path +:+ " => {" ]
     ++ ((λ f, call_line (Field.name f)) <$> Struct.fields v)
     ++ [ "  }" ]).

Definition list_rec_lines (se : Decl) (target : string) : list string :=
  ([ "match " +:+ target +:+ " {" ]
     ++ concat (arm_lines <$> variants_paths se)
     ++ [ "}" ]).

Definition list_rec (se : Decl) (target : string) : string :=
  Util.linewise (list_rec_lines se target).

Definition list_impl_lines (se : Decl) : list string :=
  [ "#[allow(unused, non_shorthand_field_patterns)]";
    "impl ListNodeIds for " +:+ decl_name se +:+ " {";
    "  fn add_node_ids(&self, node_id_list: &mut Vec<NodeId>) {";
    Textwrap.indent (list_rec se "self") "    ";
    "  }";
    "}" ].

Definition list_impl (se : Decl) : string := Util.linewise (list_impl_lines se).

Definition dummy_impl_lines (se : Decl) : list string :=
  [ "#[allow(unused, non_shorthand_field_patterns)]";
    "impl ListNodeIds for " +:+ decl_name se +:+ " {";
    "  fn add_node_ids(&self, _node_id_list: &mut Vec<NodeId>) {";
    "    // Do nothing";
    "  }";
    "}" ].

Definition dummy_impl (se : Decl) : string := Util.linewise (dummy_impl_lines se).

(** What one iteration of the loop of [generate] yields. *)
Definition emitted (d : Decl) : list string :=
  if bool_decide (attr_get "list_node_ids" (decl_attrs d) = Some "custom") then []
  else if is_struct_or_enum d then [list_impl d]
  else [dummy_impl d].

Definition generate (now : string) (decls : list Decl) : string :=
  Util.linewise (banner now ++ concat (emitted <$> decls)).

End ListNodeIds.

(** ** The Rust fragments the emitted text stands for

    A match pattern as the Rust grammar has it, with its rendering as text
    and the identifiers it binds; used to say what an emitted arm binds. *)

Module Rust.

Record binding : Type := Bind { mode : string; ident : string }.

Inductive pattern : Type :=
  | PPath (path : string)
  | PTuple (path : string) (elems : list binding)
  | PStruct (path : string) (members : list (string * binding)).

Definition render_binding (b : binding) : string := mode b +:+ ident b.

Definition render (p : pattern) : string :=
  match p with
  | PPath path => path
  | PTuple path elems =>
      path +:+ "(" +:+ join ", " (render_binding <$> elems) +:+ ")"
  | PStruct path members =>
      path +:+ " { "
        +:+ join ", " ((λ m, m.1 +:+ ": " +:+ render_binding m.2) <$> members)
        +:+ " }"
  end.

Definition bindings (p : pattern) : list binding :=
  match p with
  | PPath _ => []
  | PTuple _ elems => elems
  | PStruct _ members => snd <$> members
  end.

(** The identifiers a pattern binds, in the order it binds them. *)
Definition bound (p : pattern) : list string := ident <$> bindings p.

Definition path_of (p : pattern) : string :=
  match p with
  | PPath path | PTuple path _ | PStruct path _ => path
  end.

(** A line holding nothing but a line comment. *)
Fixpoint is_line_comment (line : string) : bool :=
  match line with
  | String " " rest => is_line_comment rest
  | String "/" (String "/" _) => true
  | _ => false
  end.

(** The code of a line: the line up to its line comment, if it has one. *)
Fixpoint strip_line_comment (line : string) : string :=
  match line with
  | EmptyString => EmptyString
  | String "/" (String "/" _) => EmptyString
  | String c rest => String c (strip_line_comment rest)
  end.

(** A call statement: the called path applied to its arguments. *)
Definition render_call (callee : string) (args : list string) : string :=
  callee +:+ "(" +:+ join ", " args +:+ ");".

End Rust.

(** A field carries the kind marker; the number of such fields of a struct. *)
Definition kind_marked (f : Field.t) : Prop := is_Some (Field.attrs f !! "kind").

Definition count_marked (s : Struct.t) : nat :=
  length (filter kind_marked (Struct.fields s)).

(** A declaration carries the override marker of the child-node-id
    generator. *)
Definition is_custom (d : Decl) : Prop :=
  decl_attrs d !! "list_node_ids" = Some (Some "custom").

(** The parts of an implementation block of the name generator. *)
Definition names_header (d : Decl) : list string :=
  [ "#[allow(unused, non_shorthand_field_patterns)]";
    "impl AstName for " +:+ decl_name d +:+ " {";
    "  fn ast_name(&self) -> String {";
    "    match self {" ].

Definition names_footer : list string := [ "    }"; "  }"; "}" ].

(** The line returning the arm's name, and the line appending the name of
    the kind field's value. *)
Definition name_line (v : Struct.t) : string :=
  "        " +:+ dquote +:+ Struct.name v +:+ dquote +:+ ".to_string()".

Definition kind_suffix_line (k : string) : string :=
  "        + " +:+ dquote +:+ ":" +:+ dquote +:+ " + &self." +:+ k +:+ ".ast_name()".

Definition pattern_line (v : Struct.t) (path : string) : string :=
  "      &" +:+ Util.struct_pattern_default v path +:+ " => {".

(** The pattern an arm of the child-node-id generator is written from: the
    fields bound by reference under their own names. *)
Definition pattern_of (v : Struct.t) (path : string) : Rust.pattern :=
  let by_ref := λ f, Rust.Bind "ref " (Field.name f) in
  if negb (Struct.is_tuple v) then
    Rust.PStruct path ((λ f, (Field.name f, by_ref f)) <$> Struct.fields v)
  else
    match Struct.fields v with
    | [] => Rust.PPath path
    | fields => Rust.PTuple path (by_ref <$> fields)
    end.

(** The text of a match arm that binds with the given pattern and passes
    each of the given identifiers, in order and together with the output
    list [node_id_list], to [ListNodeIds::add_node_ids]. *)
Definition arm_text (arm : Rust.pattern * list string) : list string :=
  ["  &" +:+ Rust.render arm.1 +:+ " => {"]
    ++ ((λ x, "    " +:+ Rust.render_call "ListNodeIds::add_node_ids" [x; "node_id_list"])
          <$> arm.2)
    ++ ["  }"].

(** No character of the line ends a line. *)
Fixpoint no_line_boundary (line : string) : bool :=
  match line with
  | EmptyString => true
  | String c rest => negb (Textwrap.is_line_boundary c) && no_line_boundary rest
  end.

(** The first two lines of every output, up to the blank banner line. *)
Definition stamp (now rest : string) : string :=
  "// AUTOMATICALLY GENERATED - DO NOT EDIT" +:+ newline
    +:+ ("// Produced " +:+ now +:+ " by process_ast.py") +:+ newline
    +:+ rest.

(** The text holds no capital of [[A-Z]]. *)
Fixpoint no_caps (s : string) : bool :=
  match s with
  | EmptyString => true
  | String c rest => negb (Util.is_cap c) && no_caps rest
  end.

(** The text without its underscores, and the text with its capitals in
    lower case. *)
Fixpoint strip_underscores (s : string) : string :=
  match s with
  | EmptyString => EmptyString
  | String c rest =>
      if Ascii.eqb c "_" then strip_underscores rest
      else String c (strip_underscores rest)
  end.

Fixpoint lower_all (s : string) : string :=
  match s with
  | EmptyString => EmptyString
  | String c rest =>
      String (if Util.is_cap c then Util.lower c else c) (lower_all rest)
  end.

(** The text starts with an underscore. *)
Definition starts_with_underscore (s : string) : bool :=
  match s with
  | String "_" _ => true
  | _ => false
  end.

(** The pattern [struct_pattern] writes for any suffix and binding mode:
    every field bound under its name followed by the suffix. *)
Definition binding_pattern (v : Struct.t) (path suffix bind_mode : string)
  : Rust.pattern :=
  let bind := λ f, Rust.Bind bind_mode (Field.name f +:+ suffix) in
  if negb (Struct.is_tuple v) then
    Rust.PStruct path ((λ f, (Field.name f, bind f)) <$> Struct.fields v)
  else
    match Struct.fields v with
    | [] => Rust.PPath path
    | fields => Rust.PTuple path (bind <$> fields)
    end.

(** The path and the field names of a variant hold no line boundary, as
    identifiers do. *)
Definition single_line_variant (vp : Struct.t * string) : Prop :=
  no_line_boundary vp.2 = true
  ∧ Forall (λ f, no_line_boundary (Field.name f) = true) (Struct.fields vp.1).

(** A struct that makes [find_kind_field] raise. *)
Definition ambiguous (s : Struct.t) : Prop :=
  Struct.attrs s !! "no_kind" = None ∧ 2 ≤ count_marked s.

(** ** Sample declarations *)

Module Samples.

Definition plain (n : string) : Field.t := Field.Build n ∅.
Definition marked (n : string) : Field.t := Field.Build n {[ "kind" := None ]}.

(** [enum Shape { Circle(radius), Square(#[kind] side) }] *)
Definition circle : Struct.t := Struct.Build "Circle" [plain "radius"] true ∅.
Definition square : Struct.t := Struct.Build "Square" [marked "side"] true ∅.
Definition shape : Decl := DEnum (Enum.Build "Shape" [circle; square] ∅).

(** [struct Expr { id, #[kind] node }] *)
Definition expr : Struct.t :=
  Struct.Build "Expr" [plain "id"; marked "node"] false ∅.

(** [struct Amb { #[kind] x, #[kind] y }] *)
Definition amb : Struct.t := Struct.Build "Amb" [marked "x"; marked "y"] false ∅.

(** [struct P(a, b)] and [struct P { x, y }] *)
Definition pair_tuple : Struct.t := Struct.Build "P" [plain "a"; plain "b"] true ∅.
Definition pair_named : Struct.t := Struct.Build "P" [plain "x"; plain "y"] false ∅.

(** An opaque type, one without attributes and one with
    [#[list_node_ids=custom]]. *)
Definition span : Opaque.t := Opaque.Build "Span" ∅.
Definition node_id : Opaque.t :=
  Opaque.Build "NodeId" {[ "list_node_ids" := Some "custom" ]}.

End Samples.

(** * Properties *)

(** ** Strings and joins *)

Lemma app_empty_r (s : string) : s +:+ "" = s.
Proof. induction s as [|c s IH]; [done|]. unfold String.app; fold String.app. by rewrite IH. Qed.

Lemma app_assoc_str (a b c : string) : (a +:+ b) +:+ c = a +:+ b +:+ c.
Proof.
  induction a as [|x a IH]; [done|].
  unfold String.app; fold String.app. by rewrite IH.
Qed.

Lemma app_cons_str (x : ascii) (a b : string) : String x a +:+ b = String x (a +:+ b).
Proof. done. Qed.

Lemma join_cons_cons (sep x y : string) (rest : list string) :
  join sep (x :: y :: rest) = x +:+ sep +:+ join sep (y :: rest).
Proof. done. Qed.

Lemma join_singleton (sep x : string) : join sep [x] = x.
Proof. done. Qed.

(** ** The error monad *)

Lemma for_yield_cons {A B : Type} (body : A → result (list B)) (x : A) (xs : list A) :
  for_yield body (x :: xs) =
    (ys ← body x; zs ← for_yield body xs; Ok (ys ++ zs)).
Proof. done. Qed.

(** A loop whose body never raises yields every batch. *)
Lemma for_yield_total {A B : Type} (body : A → result (list B)) (f : A → list B)
    (xs : list A) :
  (∀ x, x ∈ xs → body x = Ok (f x)) →
  for_yield body xs = Ok (concat (f <$> xs)).
Proof.
  induction xs as [|x xs IH]; intros Hb; [done|].
  rewrite for_yield_cons, (Hb x), IH; [done| |by left].
  intros y Hy. apply Hb. by right.
Qed.

(** A loop raises exactly the exception of its first raising iteration. *)
Lemma for_yield_Raise {A B : Type} (body : A → result (list B)) (xs : list A) (e : exn) :
  for_yield body xs = Raise e → ∃ x, x ∈ xs ∧ body x = Raise e.
Proof.
  induction xs as [|x xs IH]; [done|]. rewrite for_yield_cons.
  destruct (body x) as [u|e'] eqn:Hx; simpl.
  - destruct (for_yield body xs) as [us|e'']; simpl; [done|].
    intros [= ->]. destruct IH as (y & ? & ?); [done|].
    exists y. split; [by right|done].
  - intros [= ->]. exists x. split; [by left|done].
Qed.

Lemma for_yield_elem_Raise {A B : Type} (body : A → result (list B)) (xs : list A)
    (x : A) (e : exn) :
  x ∈ xs → body x = Raise e → ∃ e', for_yield body xs = Raise e'.
Proof.
  induction xs as [|y xs IH]; intros Hin Hx; [by apply elem_of_nil in Hin|].
  rewrite for_yield_cons. destruct (body y) as [u|e'] eqn:Hy; simpl; [|by exists e'].
  apply elem_of_cons in Hin as [->|Hin]; [congruence|].
  destruct (IH Hin Hx) as [e' ->]. by exists e'.
Qed.

(** ** util.py: the kind field of a struct *)

Section find_kind_field.
Variable s : Struct.t.

Lemma has_attr_true (key : string) (attrs : gmap string (option string)) :
  has_attr key attrs = true ↔ is_Some (attrs !! key).
Proof. unfold has_attr. by rewrite bool_decide_eq_true. Qed.

Lemma has_attr_false (key : string) (attrs : gmap string (option string)) :
  has_attr key attrs = false ↔ attrs !! key = None.
Proof.
  unfold has_attr. rewrite bool_decide_eq_false, <-eq_None_not_Some. done.
Qed.

Lemma marked_fields_filter :
  Util.marked_fields s = Field.name <$> filter kind_marked (Struct.fields s).
Proof.
  unfold Util.marked_fields. f_equal. apply list_filter_iff.
  intros f. apply has_attr_true.
Qed.

Lemma length_marked_fields : length (Util.marked_fields s) = count_marked s.
Proof. rewrite marked_fields_filter. apply length_fmap. Qed.

(** When one field is marked, the list of marked names holds its name. *)
Lemma marked_fields_unique (f : Field.t) :
  f ∈ Struct.fields s → kind_marked f → count_marked s = 1 →
  Util.marked_fields s = [Field.name f].
Proof.
  intros Hin Hm Hc. rewrite marked_fields_filter. unfold count_marked in Hc.
  assert (f ∈ filter kind_marked (Struct.fields s)) as Hf
    by (by apply list_elem_of_filter).
  destruct (filter kind_marked (Struct.fields s)) as [|g [|h l]]; try done.
  by apply list_elem_of_singleton in Hf as ->.
Qed.

Lemma find_kind_field_unmarked :
  Struct.attrs s !! "no_kind" = None → count_marked s = 0 →
  Util.find_kind_field s =
    Ok (head (Field.name <$> filter (λ f, Field.name f = "kind") (Struct.fields s))).
Proof.
  intros Hno Hc. unfold Util.find_kind_field.
  apply has_attr_false in Hno. rewrite Hno. cbv zeta.
  by rewrite length_marked_fields, Hc.
Qed.

Lemma find_kind_field_many :
  Struct.attrs s !! "no_kind" = None → 2 ≤ count_marked s →
  Util.find_kind_field s = Raise (ValueError (Util.ambiguous_message s)).
Proof.
  intros Hno Hc. unfold Util.find_kind_field.
  apply has_attr_false in Hno. rewrite Hno. cbv zeta.
  rewrite length_marked_fields.
  destruct (count_marked s) as [|[|n]]; [lia..|done].
Qed.

(** Whatever [find_kind_field] raises is the error about several marked
    fields; the subscript [marked_fields[0]] is never out of range. *)
Lemma find_kind_field_Raise (e : exn) :
  Util.find_kind_field s = Raise e →
  e = ValueError (Util.ambiguous_message s)
  ∧ Struct.attrs s !! "no_kind" = None ∧ 2 ≤ count_marked s.
Proof.
  unfold Util.find_kind_field.
  destruct (has_attr "no_kind" (Struct.attrs s)) eqn:Hno; [done|].
  apply has_attr_false in Hno. cbv zeta. rewrite <-length_marked_fields.
  destruct (Util.marked_fields s) as [|x [|y l]]; simpl; [done..|].
  intros [= <-]. split_and!; [done..|lia].
Qed.

End find_kind_field.

(** C1: [find_kind_field] returns no field for a struct carrying the
    [no_kind] marker, whatever its fields are; otherwise the name of the
    field marked [kind] when exactly one field is marked; and with no
    marked field the name [kind] when some field has that name, no field
    when none has. *)
Theorem find_kind_field_resolves (s : Struct.t) :
  (is_Some (Struct.attrs s !! "no_kind") → Util.find_kind_field s = Ok None)
  ∧ (Struct.attrs s !! "no_kind" = None →
       (∀ f, f ∈ Struct.fields s → kind_marked f → count_marked s = 1 →
             Util.find_kind_field s = Ok (Some (Field.name f)))
       ∧ (count_marked s = 0 →
            (∃ f, f ∈ Struct.fields s ∧ Field.name f = "kind") →
            Util.find_kind_field s = Ok (Some "kind"))
       ∧ (count_marked s = 0 →
            (∀ f, f ∈ Struct.fields s → Field.name f ≠ "kind") →
            Util.find_kind_field s = Ok None)).
Proof.
  split.
  - intros Hno%has_attr_true. unfold Util.find_kind_field. by rewrite Hno.
  - intros Hno. split_and!.
    + intros f Hin Hm Hc. unfold Util.find_kind_field.
      apply has_attr_false in Hno. rewrite Hno. cbv zeta.
      by rewrite (marked_fields_unique s f).
    + intros Hc (f & Hin & Hname). rewrite find_kind_field_unmarked by done.
      assert (f ∈ filter (λ f, Field.name f = "kind") (Struct.fields s)) as Hf
        by (by apply list_elem_of_filter).
      destruct (filter _ (Struct.fields s)) as [|g l] eqn:Hfl.
      { by apply elem_of_nil in Hf. }
      assert (g ∈ filter (λ f, Field.name f = "kind") (Struct.fields s)) as Hg
        by (rewrite Hfl; left).
      apply list_elem_of_filter in Hg as [Hg _]. simpl. by rewrite Hg.
    + intros Hc Hnone. rewrite find_kind_field_unmarked by done.
      destruct (filter _ (Struct.fields s)) as [|g l] eqn:Hfl; [done|].
      assert (g ∈ filter (λ f, Field.name f = "kind") (Struct.fields s)) as Hg
        by (rewrite Hfl; left).
      apply list_elem_of_filter in Hg as [Hg Hin]. by destruct (Hnone g).
Qed.

Lemma find_kind_field_resolves_witness :
  Util.find_kind_field Samples.expr = Ok (Some "node")
  ∧ Util.find_kind_field Samples.pair_named = Ok None.
Proof.
  destruct (find_kind_field_resolves Samples.expr) as [_ Hexpr].
  destruct (find_kind_field_resolves Samples.pair_named) as [_ Hpair].
  split.
  - apply (proj1 (Hexpr eq_refl) (Samples.marked "node")).
    + right. left.
    + by eexists.
    + reflexivity.
  - apply (proj2 (proj2 (Hpair eq_refl))).
    + reflexivity.
    + intros f Hf. change (f ∈ [Samples.plain "x"; Samples.plain "y"]) in Hf.
      rewrite !elem_of_cons, elem_of_nil in Hf.
      destruct Hf as [->|[->|[]]]; discriminate.
Defined.

(** ** ast_names.py: when the generator raises *)

Lemma arm_lines_struct (s v : Struct.t) (path : string) :
  AstNames.arm_lines (DStruct s) (v, path) =
    (kind_field ← Util.find_kind_field s;
     Ok ([pattern_line v path; name_line v]
           ++ (if truthy kind_field
               then [kind_suffix_line (default "" kind_field)] else [])
           ++ ["      }"])).
Proof. unfold AstNames.arm_lines. by destruct (Util.find_kind_field s). Qed.

Lemma arm_lines_enum (e : Enum.t) (v : Struct.t) (path : string) :
  AstNames.arm_lines (DEnum e) (v, path) =
    Ok [pattern_line v path; name_line v; "      }"].
Proof. done. Qed.

Lemma do_ast_names_impl_lines_struct (s : Struct.t) :
  AstNames.do_ast_names_impl_lines (DStruct s) =
    (kind_field ← Util.find_kind_field s;
     Ok (names_header (DStruct s)
           ++ [pattern_line s (Struct.name s); name_line s]
           ++ (if truthy kind_field
               then [kind_suffix_line (default "" kind_field)] else [])
           ++ ["      }"] ++ names_footer)).
Proof.
  unfold AstNames.do_ast_names_impl_lines. simpl negb. cbv iota.
  unfold variants_paths. rewrite for_yield_cons, arm_lines_struct.
  destruct (Util.find_kind_field s) as [kf|e]; [|done].
  simpl. rewrite app_nil_r, <-app_assoc. done.
Qed.

Lemma do_ast_names_impl_lines_enum (e : Enum.t) :
  AstNames.do_ast_names_impl_lines (DEnum e) =
    Ok (names_header (DEnum e)
          ++ concat ((λ c, [pattern_line c (Enum.name e +:+ "::" +:+ Struct.name c);
                            name_line c; "      }"]) <$> Enum.variants e)
          ++ names_footer).
Proof.
  unfold AstNames.do_ast_names_impl_lines. simpl negb. cbv iota.
  rewrite (for_yield_total _ (λ vp, [pattern_line vp.1 vp.2; name_line vp.1; "      }"])).
  - unfold variants_paths. rewrite <-list_fmap_compose. done.
  - by intros [v path] _.
Qed.

Lemma do_ast_names_impl_Raise (d : Decl) (e : exn) :
  AstNames.do_ast_names_impl d = Raise e →
  ∃ s, d = DStruct s ∧ Util.find_kind_field s = Raise e.
Proof.
  unfold AstNames.do_ast_names_impl. destruct d as [s|en|o].
  - rewrite do_ast_names_impl_lines_struct.
    destruct (Util.find_kind_field s) as [kf|e'] eqn:Hk; [done|].
    intros [= ->]. by exists s.
  - by rewrite do_ast_names_impl_lines_enum.
  - done.
Qed.

Lemma generate_names_Raise (now : string) (decls : list Decl) (e : exn) :
  AstNames.generate now decls = Raise e →
  ∃ s, DStruct s ∈ decls ∧ Util.find_kind_field s = Raise e.
Proof.
  unfold AstNames.generate.
  destruct (for_yield _ decls) as [blocks|e'] eqn:Hloop; [done|].
  intros [= ->]. apply for_yield_Raise in Hloop as (d & Hin & Hd).
  destruct (AstNames.do_ast_names_impl d) as [b|e'] eqn:Hb; [done|].
  injection Hd as ->. apply do_ast_names_impl_Raise in Hb as (s & -> & ?).
  by exists s.
Qed.

(** C2: a struct without the [no_kind] marker and with two or more fields
    marked [kind] makes [find_kind_field] raise the error whose message
    names the struct and the number of marked fields; the name generator
    then raises too, for any declaration list holding the struct, instead
    of returning text; and neither [find_kind_field] nor the name
    generator raises anything else (the two other generators return text
    on every input). *)
Theorem ambiguous_kind_field (s : Struct.t) :
  Struct.attrs s !! "no_kind" = None → 2 ≤ count_marked s →
  Util.find_kind_field s =
    Raise (ValueError ("struct " +:+ Struct.name s +:+ " has "
                         +:+ format_d (count_marked s)
                         +:+ " fields marked #[kind] (expected 0 or 1)"))
  ∧ (∀ now decls, DStruct s ∈ decls → ∃ e, AstNames.generate now decls = Raise e)
  ∧ (∀ s' e, Util.find_kind_field s' = Raise e →
       e = ValueError (Util.ambiguous_message s')
       ∧ Struct.attrs s' !! "no_kind" = None ∧ 2 ≤ count_marked s')
  ∧ (∀ now decls e, AstNames.generate now decls = Raise e →
       ∃ s', DStruct s' ∈ decls ∧ e = ValueError (Util.ambiguous_message s')
             ∧ Struct.attrs s' !! "no_kind" = None ∧ 2 ≤ count_marked s').
Proof.
  intros Hno Hc. split_and!.
  - rewrite find_kind_field_many by done.
    unfold Util.ambiguous_message. by rewrite length_marked_fields.
  - intros now decls Hin. unfold AstNames.generate.
    destruct (for_yield_elem_Raise
                (λ d, block ← AstNames.do_ast_names_impl d; Ok [block])
                decls (DStruct s) (ValueError (Util.ambiguous_message s)) Hin)
      as [e He].
    + unfold AstNames.do_ast_names_impl.
      rewrite do_ast_names_impl_lines_struct, find_kind_field_many by done. done.
    + exists e. by rewrite He.
  - intros s' e. apply find_kind_field_Raise.
  - intros now decls e (s' & Hin & He)%generate_names_Raise.
    exists s'. split; [done|]. by apply find_kind_field_Raise.
Qed.

Lemma ambiguous_kind_field_witness :
  Util.find_kind_field Samples.amb =
    Raise (ValueError "struct Amb has 2 fields marked #[kind] (expected 0 or 1)")
  ∧ ∃ e, AstNames.generate "2024-01-01 00:00:00"
           [Samples.shape; DStruct Samples.amb; DOpaque Samples.span] = Raise e.
Proof.
  assert (Struct.attrs Samples.amb !! "no_kind" = None) as Hno by reflexivity.
  assert (2 ≤ count_marked Samples.amb) as Hc by (vm_compute; lia).
  destruct (ambiguous_kind_field Samples.amb Hno Hc) as (Hf & Hg & _).
  split.
  - exact Hf.
  - apply Hg. right. left.
Defined.

(** ** util.py: match patterns *)

(** C3: [struct_pattern] gives, for a variant with named fields, the path
    followed by the braces holding [name: bind_mode name suffix] for each
    field in declaration order, separated by commas (an empty field list
    still gives the braces); for a tuple variant without fields the bare
    path; for a tuple variant with fields the path followed by the
    parenthesised bindings.  The default binding mode is [ref ] and the
    default suffix is empty, so tuple fields a, b under path P give
    [P(ref a, ref b)], and named fields x, y with suffix [_new] give
    [P { x: ref x_new, y: ref y_new }]. *)
Theorem struct_pattern_shapes (v : Struct.t) (p suffix bind_mode : string) :
  (Struct.is_tuple v = false →
     Util.struct_pattern v p suffix bind_mode =
       p +:+ " { "
         +:+ join ", " ((λ f, Field.name f +:+ ": " +:+ bind_mode +:+ Field.name f +:+ suffix)
                          <$> Struct.fields v)
         +:+ " }")
  ∧ (Struct.is_tuple v = false → Struct.fields v = [] →
       Util.struct_pattern v p suffix bind_mode = p +:+ " {  }")
  ∧ (Struct.is_tuple v = true → Struct.fields v = [] →
       Util.struct_pattern v p suffix bind_mode = p)
  ∧ (Struct.is_tuple v = true → Struct.fields v ≠ [] →
       Util.struct_pattern v p suffix bind_mode =
         p +:+ "("
           +:+ join ", " ((λ f, bind_mode +:+ Field.name f +:+ suffix) <$> Struct.fields v)
           +:+ ")")
  ∧ Util.struct_pattern_default v p = Util.struct_pattern v p "" "ref "
  ∧ (Struct.is_tuple v = true → Field.name <$> Struct.fields v = ["a"; "b"] →
       Util.struct_pattern_default v "P" = "P(ref a, ref b)")
  ∧ (Struct.is_tuple v = false → Field.name <$> Struct.fields v = ["x"; "y"] →
       Util.struct_pattern v "P" "_new" Util.default_bind_mode
         = "P { x: ref x_new, y: ref y_new }").
Proof.
  unfold Util.struct_pattern_default, Util.struct_pattern.
  split_and!.
  - by intros ->.
  - by intros -> ->.
  - by intros -> ->.
  - intros -> Hne. destruct (Struct.fields v); done.
  - done.
  - intros -> Hn. destruct (Struct.fields v) as [|fa [|fb [|? ?]]]; try done.
    injection Hn as Ha Hb. unfold Util.tuple_fields. simpl. by rewrite Ha, Hb.
  - intros -> Hn. destruct (Struct.fields v) as [|fx [|fy [|? ?]]]; try done.
    injection Hn as Hx Hy. unfold Util.struct_fields. simpl. by rewrite Hx, Hy.
Qed.

Lemma struct_pattern_shapes_witness :
  Util.struct_pattern_default Samples.pair_tuple "P" = "P(ref a, ref b)"
  ∧ Util.struct_pattern Samples.pair_named "P" "_new" Util.default_bind_mode
    = "P { x: ref x_new, y: ref y_new }"
  ∧ Util.struct_pattern (Struct.Build "Unit" [] true ∅) "E::Unit" "" "ref " = "E::Unit".
Proof.
  split_and!.
  - apply (struct_pattern_shapes Samples.pair_tuple "P" "" "ref "); reflexivity.
  - apply (struct_pattern_shapes Samples.pair_named "P" "_new" "ref "); reflexivity.
  - apply (struct_pattern_shapes (Struct.Build "Unit" [] true ∅) "E::Unit" "" "ref ");
      reflexivity.
Defined.

(** ** ast_names.py: the arms of the emitted match *)

(** C4: for a Struct declaration the single arm returns the struct's name
    as a string literal, followed by the line appending the name of the
    kind field's value when [find_kind_field] returns a field (of
    non-empty name) for the struct, and by nothing when it returns none;
    for an Enum declaration every arm returns the case's bare name only:
    no kind field is looked up for the cases. *)
Theorem ast_names_kind_suffix :
  (∀ s k, Util.find_kind_field s = Ok (Some k) → k ≠ "" →
     AstNames.do_ast_names_impl (DStruct s) =
       Ok (Util.linewise
             (names_header (DStruct s)
                ++ [pattern_line s (Struct.name s); name_line s;
                    kind_suffix_line k; "      }"]
                ++ names_footer)))
  ∧ (∀ s, Util.find_kind_field s = Ok None →
       AstNames.do_ast_names_impl (DStruct s) =
         Ok (Util.linewise
               (names_header (DStruct s)
                  ++ [pattern_line s (Struct.name s); name_line s; "      }"]
                  ++ names_footer)))
  ∧ (∀ e, AstNames.do_ast_names_impl (DEnum e) =
       Ok (Util.linewise
             (names_header (DEnum e)
                ++ concat ((λ c, [pattern_line c (Enum.name e +:+ "::" +:+ Struct.name c);
                                  name_line c; "      }"]) <$> Enum.variants e)
                ++ names_footer))).
Proof.
  unfold AstNames.do_ast_names_impl. split_and!.
  - intros s k Hk Hne. rewrite do_ast_names_impl_lines_struct, Hk.
    destruct k; done.
  - intros s Hk. by rewrite do_ast_names_impl_lines_struct, Hk.
  - intros e. by rewrite do_ast_names_impl_lines_enum.
Qed.

Lemma ast_names_kind_suffix_witness :
  AstNames.do_ast_names_impl (DStruct Samples.expr) =
    Ok (Util.linewise
          [ "#[allow(unused, non_shorthand_field_patterns)]";
            "impl AstName for Expr {";
            "  fn ast_name(&self) -> String {";
            "    match self {";
            "      &Expr { id: ref id, node: ref node } => {";
            name_line Samples.expr;
            kind_suffix_line "node";
            "      }";
            "    }"; "  }"; "}" ]).
Proof.
  apply (proj1 ast_names_kind_suffix Samples.expr "node"); [reflexivity|discriminate].
Defined.

(** The enum [Shape] has a case [Square] whose field [side] is marked as
    its kind field, yet the arm emitted for the case does not append the
    name of that field's value. *)
Lemma enum_case_kind_field_not_used :
  (Samples.square, "Shape::Square") ∈ variants_paths Samples.shape
  ∧ Util.find_kind_field Samples.square = Ok (Some "side")
  ∧ AstNames.arm_lines Samples.shape (Samples.square, "Shape::Square") =
      Ok ["      &Shape::Square(ref side) => {"; name_line Samples.square; "      }"]
  ∧ kind_suffix_line "side"
      ∉ ["      &Shape::Square(ref side) => {"; name_line Samples.square; "      }"].
Proof.
  split_and!.
  - right. left.
  - reflexivity.
  - reflexivity.
  - rewrite !elem_of_cons, elem_of_nil. intros [H|[H|[H|[]]]]; vm_compute in H; discriminate H.
Qed.

Lemma concat_const_singleton {A B : Type} (b : B) (xs : list A) :
  concat ((λ _, [b]) <$> xs) = replicate (length xs) b.
Proof. induction xs as [|x xs IH]; [done|]. simpl. f_equal. exact IH. Qed.

(** C8: the name generator yields the empty text for a declaration that is
    neither a Struct nor an Enum, and a text that is not empty for a Struct
    or an Enum; a list of such other declarations gives the banner followed
    by empty lines only. *)
Theorem names_only_for_struct_enum :
  (∀ o, AstNames.do_ast_names_impl (DOpaque o) = Ok "")
  ∧ (∀ d block, AstNames.do_ast_names_impl d = Ok block →
       (block = "" ↔ is_struct_or_enum d = false))
  ∧ (∀ now os, AstNames.generate now (DOpaque <$> os) =
       Ok (Util.linewise (banner now ++ replicate (length os) ""))).
Proof.
  split_and!.
  - done.
  - intros d block. unfold AstNames.do_ast_names_impl.
    destruct d as [s|e|o].
    + rewrite do_ast_names_impl_lines_struct.
      destruct (Util.find_kind_field s) as [kf|?]; [|done].
      intros [= <-]. split; done.
    + rewrite do_ast_names_impl_lines_enum. intros [= <-]. split; done.
    + intros [= <-]. done.
  - intros now os. unfold AstNames.generate.
    rewrite (for_yield_total _ (λ _, [""])) by (by intros d (o & -> & _)%list_elem_of_fmap).
    by rewrite concat_const_singleton, length_fmap.
Qed.

(** ** ast_deref.py *)

(** C5: [do_ast_deref_impl] yields the attribute line and the four lines of
    the reflexive implementation for every declaration, whatever its
    attributes; in particular the declaration [Span], which does not carry
    [rewrite_seq_item], receives an implementation block in the output. *)
Theorem deref_impl_ignores_marker :
  (∀ d, AstDeref.do_ast_deref_impl d =
     Util.linewise
       [ "#[allow(unused)]";
         "impl AstDeref for " +:+ decl_name d +:+ " {";
         "  type Target = Self;";
         "  fn ast_deref(&self) -> &Self { self }";
         "}" ])
  ∧ decl_attrs (DOpaque Samples.span) !! "rewrite_seq_item" = None
  ∧ AstDeref.generate "2024-01-01 00:00:00" [DOpaque Samples.span] =
      Util.linewise
        [ "// AUTOMATICALLY GENERATED - DO NOT EDIT";
          "// Produced 2024-01-01 00:00:00 by process_ast.py";
          "";
          Util.linewise
            [ "#[allow(unused)]";
              "impl AstDeref for Span {";
              "  type Target = Self;";
              "  fn ast_deref(&self) -> &Self { self }";
              "}" ] ].
Proof. split_and!; [done|reflexivity|reflexivity]. Qed.

(** ** Determinism *)

Lemma linewise_banner (now : string) (blocks : list string) :
  Util.linewise (banner now ++ blocks) = stamp now (Util.linewise ("" :: blocks)).
Proof. done. Qed.

(** C9: the output of each of the three generators is a function of the
    declaration list and of the time printed in the banner: two runs on the
    same list with the same time give the same text, and the time shows up
    in the second banner line only, the rest of the text being the same for
    every time. *)
Theorem generate_deterministic (decls : list Decl) :
  (∀ now1 now2, now1 = now2 →
     AstDeref.generate now1 decls = AstDeref.generate now2 decls
     ∧ AstNames.generate now1 decls = AstNames.generate now2 decls
     ∧ ListNodeIds.generate now1 decls = ListNodeIds.generate now2 decls)
  ∧ (∃ (rest_deref rest_ids : string) (rest_names : result string), ∀ now,
       AstDeref.generate now decls = stamp now rest_deref
       ∧ AstNames.generate now decls = (rest ← rest_names; Ok (stamp now rest))
       ∧ ListNodeIds.generate now decls = stamp now rest_ids).
Proof.
  split.
  - by intros now1 now2 ->.
  - exists (Util.linewise ("" :: (AstDeref.do_ast_deref_impl <$> decls))),
           (Util.linewise ("" :: concat (ListNodeIds.emitted <$> decls))),
           (blocks ← for_yield (λ d, block ← AstNames.do_ast_names_impl d; Ok [block]) decls;
            Ok (Util.linewise ("" :: blocks))).
    intros now. split_and!.
    + apply linewise_banner.
    + unfold AstNames.generate.
      destruct (for_yield _ decls) as [blocks|e]; [|done].
      change (Ok (Util.linewise (banner now ++ blocks))
              = Ok (stamp now (Util.linewise ("" :: blocks)))).
      by rewrite linewise_banner.
    + apply linewise_banner.
Qed.

(** ** textwrap.indent on the text of a match *)

Lemma join_cons_nonempty (sep x : string) (rest : list string) :
  rest ≠ [] → join sep (x :: rest) = x +:+ sep +:+ join sep rest.
Proof. by destruct rest. Qed.


Lemma is_line_boundary_CR (c : ascii) :
  Textwrap.is_line_boundary c = false → Ascii.eqb c Textwrap.CR = false.
Proof.
  intros Hb. destruct (Ascii.eqb c Textwrap.CR) eqn:Hc; [|done].
  apply Ascii.eqb_eq in Hc as ->. done.
Qed.

(** A first line without line boundaries, ended by a line feed, is split
    off as it is. *)
Lemma splitlines_line (cur line rest : string) :
  no_line_boundary line = true →
  Textwrap.splitlines_keepends cur (line +:+ String Textwrap.LF rest) =
    (cur +:+ line +:+ String Textwrap.LF "")
      :: Textwrap.splitlines_keepends "" rest.
Proof.
  revert cur. induction line as [|c line IH]; intros cur Hb.
  - done.
  - simpl in Hb. apply andb_true_iff in Hb as [Hc Hl].
    apply negb_true_iff in Hc.
    rewrite app_cons_str. simpl Textwrap.splitlines_keepends.
    rewrite (is_line_boundary_CR c Hc), Hc, IH by done.
    by rewrite app_assoc_str.
Qed.

Lemma is_blank_app_false (a b : string) :
  Textwrap.is_blank a = false → Textwrap.is_blank (a +:+ b) = false.
Proof.
  induction a as [|c a IH]; [done|]. rewrite app_cons_str. simpl.
  destruct (Textwrap.isspace_char c); [exact IH|done].
Qed.


(** ** list_node_ids.py *)


Lemma attr_get_custom (d : Decl) :
  attr_get "list_node_ids" (decl_attrs d) = Some "custom" ↔ is_custom d.
Proof.
  unfold attr_get, is_custom.
  destruct (decl_attrs d !! "list_node_ids") as [[v|]|]; naive_solver.
Qed.

Lemma emitted_custom (d : Decl) : is_custom d → ListNodeIds.emitted d = [].
Proof.
  intros Hc%attr_get_custom. unfold ListNodeIds.emitted.
  by rewrite bool_decide_eq_true_2.
Qed.

Lemma emitted_default (d : Decl) :
  ¬ is_custom d →
  ListNodeIds.emitted d =
    [if is_struct_or_enum d then ListNodeIds.list_impl d else ListNodeIds.dummy_impl d].
Proof.
  intros Hc. unfold ListNodeIds.emitted.
  rewrite bool_decide_eq_false_2 by (by rewrite attr_get_custom).
  by destruct (is_struct_or_enum d).
Qed.



(** C7: for a declaration that is neither a Struct nor an Enum and has no
    override, the child-node-id generator yields the dummy
    implementation, whose text is written out below: its [add_node_ids]
    takes the output list under the unused name [_node_id_list], and its
    body is the single line [// Do nothing], which holds no line break
    and, its comment apart, nothing but spaces, so the body holds no
    operation. *)
Theorem dummy_impl_no_operation (o : Opaque.t) :
  ¬ is_custom (DOpaque o) →
  ListNodeIds.emitted (DOpaque o) = [ListNodeIds.dummy_impl (DOpaque o)]
  ∧ (∀ now, ListNodeIds.generate now [DOpaque o] =
       Util.linewise (banner now ++ [ListNodeIds.dummy_impl (DOpaque o)]))
  ∧ ListNodeIds.dummy_impl (DOpaque o) =
      "#[allow(unused, non_shorthand_field_patterns)]" +:+ newline
        +:+ ("impl ListNodeIds for " +:+ Opaque.name o +:+ " {") +:+ newline
        +:+ "  fn add_node_ids(&self, _node_id_list: &mut Vec<NodeId>) {" +:+ newline
        +:+ "    // Do nothing" +:+ newline
        +:+ "  }" +:+ newline
        +:+ "}"
  ∧ ListNodeIds.dummy_impl (DOpaque o) =
      Util.linewise (ListNodeIds.dummy_impl_lines (DOpaque o))
  ∧ ∃ body,
      ListNodeIds.dummy_impl_lines (DOpaque o) =
        [ "#[allow(unused, non_shorthand_field_patterns)]";
          "impl ListNodeIds for " +:+ Opaque.name o +:+ " {";
          "  fn add_node_ids(&self, _node_id_list: &mut Vec<NodeId>) {" ]
          ++ body ++ [ "  }"; "}" ]
      ∧ body = [ "    // Do nothing" ]
      ∧ length body = 1
      ∧ Forall (λ line, Rust.is_line_comment line = true) body
      ∧ Forall (λ line, no_line_boundary line = true
                        ∧ Textwrap.is_blank (Rust.strip_line_comment line) = true) body.
Proof.
  intros Hc. split_and!.
  - by rewrite emitted_default.
  - intros now. unfold ListNodeIds.generate. simpl.
    by rewrite (emitted_default _ Hc), app_nil_r.
  - done.
  - done.
  - exists ["    // Do nothing"]. split_and!; [done..| |].
    + by apply Forall_singleton.
    + by apply Forall_singleton.
Qed.

Lemma dummy_impl_no_operation_witness :
  ListNodeIds.emitted (DOpaque Samples.span) = [ListNodeIds.dummy_impl (DOpaque Samples.span)].
Proof.
  apply (dummy_impl_no_operation Samples.span).
  unfold is_custom. vm_compute. discriminate.
Defined.

(** ** list_node_ids.py: what an arm binds and what it uses *)

Lemma render_by_ref (f : Field.t) :
  Rust.render_binding (Rust.Bind "ref " (Field.name f))
  = Util.default_bind_mode +:+ Field.name f +:+ Util.default_suffix.
Proof.
  unfold Rust.render_binding, Util.default_suffix, Util.default_bind_mode.
  cbn [Rust.mode Rust.ident]. by rewrite app_empty_r.
Qed.

Lemma render_pattern_of (v : Struct.t) (path : string) :
  Rust.render (pattern_of v path) = Util.struct_pattern_default v path.
Proof.
  unfold pattern_of, Util.struct_pattern_default, Util.struct_pattern.
  destruct (Struct.is_tuple v); cbn [negb].
  - destruct (Struct.fields v) as [|f fields] eqn:Hf; [done|].
    cbn [Rust.render length Nat.eqb]. unfold Util.tuple_fields, Util.comma_sep.
    do 3 f_equal. apply (f_equal (join ", ")). rewrite <-list_fmap_compose.
    apply list_fmap_ext. intros ? g _. apply render_by_ref.
  - cbn [Rust.render]. unfold Util.struct_fields, Util.comma_sep.
    do 3 f_equal. apply (f_equal (join ", ")). rewrite <-list_fmap_compose.
    apply list_fmap_ext. intros ? g _. cbn [compose fst snd].
    by rewrite render_by_ref.
Qed.

Lemma bound_pattern_of (v : Struct.t) (path : string) :
  Rust.bound (pattern_of v path) = Field.name <$> Struct.fields v.
Proof.
  unfold Rust.bound, pattern_of.
  destruct (Struct.is_tuple v); cbn [negb].
  - destruct (Struct.fields v) as [|f fields]; [done|].
    cbn [Rust.bindings]. rewrite <-list_fmap_compose.
    by apply list_fmap_ext.
  - cbn [Rust.bindings]. rewrite <-!list_fmap_compose.
    by apply list_fmap_ext.
Qed.

Lemma modes_pattern_of (v : Struct.t) (path : string) :
  Forall (λ b, Rust.mode b = "ref ") (Rust.bindings (pattern_of v path)).
Proof.
  unfold pattern_of.
  destruct (Struct.is_tuple v); cbn [negb].
  - destruct (Struct.fields v) as [|f fields]; [by apply Forall_nil|].
    cbn [Rust.bindings]. by apply Forall_fmap, Forall_true.
  - cbn [Rust.bindings]. rewrite <-list_fmap_compose.
    by apply Forall_fmap, Forall_true.
Qed.

Lemma path_pattern_of (v : Struct.t) (path : string) :
  Rust.path_of (pattern_of v path) = path.
Proof.
  unfold pattern_of. destruct (Struct.is_tuple v); cbn [negb]; [|done].
  by destruct (Struct.fields v).
Qed.

Lemma call_line_render (x : string) :
  ListNodeIds.call_line x
  = "    " +:+ Rust.render_call "ListNodeIds::add_node_ids" [x; "node_id_list"].
Proof.
  unfold ListNodeIds.call_line, Rust.render_call.
  rewrite join_cons_cons, join_singleton, !app_assoc_str. done.
Qed.

Lemma arm_lines_text (vp : Struct.t * string) :
  ListNodeIds.arm_lines vp =
    arm_text (pattern_of vp.1 vp.2, Field.name <$> Struct.fields vp.1).
Proof.
  destruct vp as [v path]. unfold ListNodeIds.arm_lines, arm_text. simpl.
  rewrite render_pattern_of, <-list_fmap_compose. do 2 f_equal.
  apply list_fmap_ext. intros ? f _. apply call_line_render.
Qed.

(** C10: the lines of [list_rec] are the opening of the match, the arms and
    the closing brace.  The arm of each variant is the line of a pattern
    for the variant's path, followed by one statement per field, in
    declaration order, that calls [ListNodeIds::add_node_ids] on the
    field's name and on [node_id_list], followed by the closing brace of
    the arm.  The pattern is the one [struct_pattern] writes with the
    empty suffix and the mode [ref ]; the identifiers it binds, all by
    reference, are exactly the first arguments of the calls, in the same
    order. *)
Theorem list_rec_arms_bind_their_arguments (se : Decl) (target : string) :
  ∃ arms : list (Rust.pattern * list string),
    ListNodeIds.list_rec_lines se target =
      ["match " +:+ target +:+ " {"]
        ++ concat
             ((λ arm,
                 ["  &" +:+ Rust.render arm.1 +:+ " => {"]
                   ++ ((λ x, "    " +:+ Rust.render_call "ListNodeIds::add_node_ids"
                                          [x; "node_id_list"]) <$> arm.2)
                   ++ ["  }"]) <$> arms)
        ++ ["}"]
    ∧ (∀ x, "    " +:+ Rust.render_call "ListNodeIds::add_node_ids" [x; "node_id_list"]
            = "    ListNodeIds::add_node_ids(" +:+ x +:+ ", node_id_list);")
    ∧ Forall2 (λ vp arm,
                 Rust.path_of arm.1 = vp.2
                 ∧ Rust.render arm.1 = Util.struct_pattern vp.1 vp.2 "" "ref "
                 ∧ arm.2 = Field.name <$> Struct.fields vp.1)
              (variants_paths se) arms
    ∧ Forall (λ arm,
                Rust.bound arm.1 = arm.2
                ∧ Forall (λ b, Rust.mode b = "ref ") (Rust.bindings arm.1))
             arms.
Proof.
  exists ((λ vp, (pattern_of vp.1 vp.2, Field.name <$> Struct.fields vp.1))
            <$> variants_paths se).
  split_and!.
  - unfold ListNodeIds.list_rec_lines. do 3 f_equal.
    rewrite <-list_fmap_compose. apply list_fmap_ext.
    intros ? vp _. apply arm_lines_text.
  - intros x. by rewrite <-call_line_render.
  - apply Forall2_fmap_r, Forall_Forall2_diag, Forall_forall.
    intros [v path] _. simpl. split_and!; [apply path_pattern_of| |done].
    apply render_pattern_of.
  - apply Forall_fmap, Forall_forall. intros [v path] _. simpl.
    split; [apply bound_pattern_of|apply modes_pattern_of].
Qed.

(** ** The generators on the sample enum *)

Example list_impl_shape :
  ListNodeIds.list_impl Samples.shape =
    Util.linewise
      [ "#[allow(unused, non_shorthand_field_patterns)]";
        "impl ListNodeIds for Shape {";
        "  fn add_node_ids(&self, node_id_list: &mut Vec<NodeId>) {";
        "    match self {";
        "      &Shape::Circle(ref radius) => {";
        "        ListNodeIds::add_node_ids(radius, node_id_list);";
        "      }";
        "      &Shape::Square(ref side) => {";
        "        ListNodeIds::add_node_ids(side, node_id_list);";
        "      }";
        "    }";
        "  }";
        "}" ].
Proof. reflexivity. Qed.

Example ast_names_shape :
  AstNames.do_ast_names_impl Samples.shape =
    Ok (Util.linewise
          [ "#[allow(unused, non_shorthand_field_patterns)]";
            "impl AstName for Shape {";
            "  fn ast_name(&self) -> String {";
            "    match self {";
            "      &Shape::Circle(ref radius) => {";
            "        " +:+ dquote +:+ "Circle" +:+ dquote +:+ ".to_string()";
            "      }";
            "      &Shape::Square(ref side) => {";
            "        " +:+ dquote +:+ "Square" +:+ dquote +:+ ".to_string()";
            "      }";
            "    }";
            "  }";
            "}" ]).
Proof. reflexivity. Qed.

Example indent_keeps_blank_lines :
  Textwrap.indent ("a" +:+ newline +:+ newline +:+ " " +:+ newline +:+ "b") "  "
  = "  a" +:+ newline +:+ newline +:+ " " +:+ newline +:+ "  b".
Proof. reflexivity. Qed.

(** ** util.py: snake *)

Lemma strip_leading_underscore (c : ascii) (r : string) :
  match String c r with
  | String "_" rest => rest
  | _ => String c r
  end = if Ascii.eqb c "_" then r else String c r.
Proof. by destruct c as [[] [] [] [] [] [] [] []]. Qed.

Lemma starts_with_underscore_cons (c : ascii) (r : string) :
  starts_with_underscore (String c r) = Ascii.eqb c "_".
Proof. by destruct c as [[] [] [] [] [] [] [] []]. Qed.

Lemma lower_not_cap (c : ascii) : Util.is_cap c = true → Util.is_cap (Util.lower c) = false.
Proof. by destruct c as [[] [] [] [] [] [] [] []]. Qed.

Lemma lower_not_underscore (c : ascii) :
  Util.is_cap c = true → Ascii.eqb (Util.lower c) "_" = false.
Proof. by destruct c as [[] [] [] [] [] [] [] []]. Qed.

Lemma cap_not_underscore (c : ascii) : Util.is_cap c = true → Ascii.eqb c "_" = false.
Proof. by destruct c as [[] [] [] [] [] [] [] []]. Qed.

Lemma snake_unfold (s : string) :
  Util.snake s =
    match Util.caps_sub s with
    | EmptyString => EmptyString
    | String c r => if Ascii.eqb c "_" then r else String c r
    end.
Proof.
  unfold Util.snake. destruct (Util.caps_sub s) as [|c r]; [done|].
  apply strip_leading_underscore.
Qed.

Lemma no_caps_caps_sub (s : string) : no_caps (Util.caps_sub s) = true.
Proof.
  induction s as [|c s IH]; [done|]. simpl.
  destruct (Util.is_cap c) eqn:Hc; simpl.
  - by rewrite (lower_not_cap c Hc), IH.
  - by rewrite Hc, IH.
Qed.

Lemma caps_sub_no_caps (s : string) : no_caps s = true → Util.caps_sub s = s.
Proof.
  induction s as [|c s IH]; [done|]. simpl.
  intros [Hc Hs]%andb_true_iff. apply negb_true_iff in Hc.
  by rewrite Hc, IH.
Qed.

Lemma strip_underscores_caps_sub (s : string) :
  strip_underscores (Util.caps_sub s) = lower_all (strip_underscores s).
Proof.
  induction s as [|c s IH]; [done|]. simpl.
  destruct (Util.is_cap c) eqn:Hc; simpl.
  - rewrite (lower_not_underscore c Hc), (cap_not_underscore c Hc). simpl.
    by rewrite Hc, IH.
  - destruct (Ascii.eqb c "_") eqn:Hu; [done|]. simpl. by rewrite Hc, IH.
Qed.

(** X1: the result of [snake] holds no capital letter. *)
Theorem snake_no_capital (s : string) : no_caps (Util.snake s) = true.
Proof.
  rewrite snake_unfold. pose proof (no_caps_caps_sub s) as H.
  destruct (Util.caps_sub s) as [|c r]; [done|].
  destruct (Ascii.eqb c "_"); [|done].
  simpl in H. by apply andb_true_iff in H as [_ ?].
Qed.

(** X2: on a text that does not start with an underscore, [snake] gives a
    text that does not start with one either and that [snake] leaves as it
    is. *)
Theorem snake_idempotent (s : string) :
  starts_with_underscore s = false →
  starts_with_underscore (Util.snake s) = false
  ∧ Util.snake (Util.snake s) = Util.snake s.
Proof.
  intros Hs.
  assert (starts_with_underscore (Util.snake s) = false) as Hr.
  { rewrite snake_unfold. destruct s as [|c s]; [done|].
    rewrite starts_with_underscore_cons in Hs. simpl.
    destruct (Util.is_cap c) eqn:Hc.
    - change (Ascii.eqb "_" "_") with true. cbv iota.
      rewrite starts_with_underscore_cons. by apply lower_not_underscore.
    - rewrite Hs. by rewrite starts_with_underscore_cons. }
  split; [done|].
  assert (no_caps (Util.snake s) = true) as Hn.
  { rewrite snake_unfold. pose proof (no_caps_caps_sub s) as H.
    destruct (Util.caps_sub s) as [|c r]; [done|].
    destruct (Ascii.eqb c "_"); [|done].
    simpl in H. by apply andb_true_iff in H as [_ ?]. }
  rewrite (snake_unfold (Util.snake s)), caps_sub_no_caps by done.
  destruct (Util.snake s) as [|c r]; [done|].
  rewrite starts_with_underscore_cons in Hr. by rewrite Hr.
Qed.

Lemma snake_idempotent_witness :
  Util.snake "NodeId" = "node_id" ∧ Util.snake (Util.snake "NodeId") = Util.snake "NodeId".
Proof.
  split; [reflexivity|]. by apply (snake_idempotent "NodeId").
Defined.

(** [snake] is not idempotent on every text: a leading underscore is
    removed once per call. *)
Example snake_leading_underscores :
  Util.snake "_Ab" = "_ab" ∧ Util.snake "_ab" = "ab".
Proof. split; reflexivity. Qed.

(** X3: [snake] changes a text only by putting capitals in lower case and
    by adding or removing underscores: without the underscores, its result
    is the text without underscores in lower case. *)
Theorem snake_keeps_letters (s : string) :
  strip_underscores (Util.snake s) = lower_all (strip_underscores s).
Proof.
  rewrite <-strip_underscores_caps_sub, snake_unfold.
  destruct (Util.caps_sub s) as [|c r]; [done|].
  destruct (Ascii.eqb c "_") eqn:Hc; [|done].
  simpl. by rewrite Hc.
Qed.

(** ** util.py: the joining decorators *)

Lemma join_app (sep : string) (xs ys : list string) :
  xs ≠ [] → ys ≠ [] →
  join sep (xs ++ ys) = join sep xs +:+ sep +:+ join sep ys.
Proof.
  intros Hx Hy. induction xs as [|x [|x' xs] IH]; [done| |].
  - by rewrite join_singleton, <-join_cons_nonempty.
  - change ((x :: x' :: xs) ++ ys) with (x :: (x' :: xs) ++ ys).
    rewrite (join_cons_cons sep x x' xs), (join_cons_nonempty sep x) by done.
    rewrite IH by done. by rewrite !app_assoc_str.
Qed.

(** X4: a decorated generator that yields the items of one non-empty
    sequence and then those of another returns the two joined texts with
    one separator between them: a newline for [linewise], a comma and a
    space for [comma_sep], a space for [wordwise]. *)
Theorem decorators_concatenate (xs ys : list string) :
  xs ≠ [] → ys ≠ [] →
  Util.linewise (xs ++ ys) = Util.linewise xs +:+ newline +:+ Util.linewise ys
  ∧ Util.comma_sep (xs ++ ys) = Util.comma_sep xs +:+ ", " +:+ Util.comma_sep ys
  ∧ Util.wordwise (xs ++ ys) = Util.wordwise xs +:+ " " +:+ Util.wordwise ys.
Proof. intros Hx Hy. split_and!; by apply join_app. Qed.

Lemma decorators_concatenate_witness :
  Util.comma_sep (["ref a"; "ref b"] ++ ["ref c"]) =
    Util.comma_sep ["ref a"; "ref b"] +:+ ", " +:+ Util.comma_sep ["ref c"].
Proof.
  apply (decorators_concatenate ["ref a"; "ref b"] ["ref c"]); discriminate.
Defined.

(** ** util.py: the field [find_kind_field] returns *)

(** X5: a name [find_kind_field] returns is the name of a field of the
    struct, and that field is marked [kind] or is named [kind]. *)
Theorem find_kind_field_names_a_field (s : Struct.t) (k : string) :
  Util.find_kind_field s = Ok (Some k) →
  ∃ f, f ∈ Struct.fields s ∧ Field.name f = k ∧ (kind_marked f ∨ k = "kind").
Proof.
  unfold Util.find_kind_field.
  destruct (has_attr "no_kind" (Struct.attrs s)); [done|]. cbv zeta.
  rewrite marked_fields_filter.
  destruct (Field.name <$> filter kind_marked (Struct.fields s))
    as [|x [|y l]] eqn:Hm; cbn [length Nat.eqb Nat.ltb Nat.leb lookup list_lookup].
  - intros [= Hk%head_Some_elem_of].
    apply list_elem_of_fmap in Hk as (f & -> & [Hf Hin]%list_elem_of_filter).
    exists f. by eauto.
  - intros [= <-].
    assert (x ∈ Field.name <$> filter kind_marked (Struct.fields s))
      as (f & -> & [Hf Hin]%list_elem_of_filter)%list_elem_of_fmap
      by (rewrite Hm; left).
    exists f. by eauto.
  - done.
Qed.

Lemma find_kind_field_names_a_field_witness :
  ∃ f, f ∈ Struct.fields Samples.expr ∧ Field.name f = "node"
       ∧ (kind_marked f ∨ "node" = "kind").
Proof. apply (find_kind_field_names_a_field Samples.expr "node"). reflexivity. Defined.

(** ** ast_names.py: which error is reported *)

Lemma for_yield_first_Raise {A B : Type} (body : A → result (list B))
    (pre post : list A) (x : A) (e : exn) :
  (∀ y, y ∈ pre → ∃ b, body y = Ok b) → body x = Raise e →
  for_yield body (pre ++ x :: post) = Raise e.
Proof.
  intros Hpre Hx. induction pre as [|y pre IH].
  - simpl app. by rewrite for_yield_cons, Hx.
  - change ((y :: pre) ++ x :: post) with (y :: pre ++ x :: post).
    rewrite for_yield_cons. destruct (Hpre y) as [b ->]; [by left|].
    rewrite IH; [done|]. intros z Hz. apply Hpre. by right.
Qed.

Lemma do_ast_names_impl_Ok (d : Decl) :
  (∀ s, d = DStruct s → ¬ ambiguous s) →
  ∃ block, AstNames.do_ast_names_impl d = Ok block.
Proof.
  intros Hd. destruct (AstNames.do_ast_names_impl d) as [b|e] eqn:Hb; [by exists b|].
  apply do_ast_names_impl_Raise in Hb as (s & -> & (_ & ? & ?)%find_kind_field_Raise).
  by destruct (Hd s).
Qed.

(** X6: the name generator reports the first struct, in the order of the
    declaration list, that has several fields marked [kind]: when no
    struct before it is in that case, the error raised is the one naming
    this struct, whatever follows it. *)
Theorem generate_names_first_error (now : string) (pre post : list Decl) (s : Struct.t) :
  (∀ s', DStruct s' ∈ pre → ¬ ambiguous s') → ambiguous s →
  AstNames.generate now (pre ++ DStruct s :: post)
  = Raise (ValueError (Util.ambiguous_message s)).
Proof.
  intros Hpre [Hno Hc]. unfold AstNames.generate.
  rewrite (for_yield_first_Raise _ pre post (DStruct s)
             (ValueError (Util.ambiguous_message s))); [done| |].
  - intros d Hd. destruct (do_ast_names_impl_Ok d) as [b ->]; [|by exists [b]].
    intros s' ->. by apply Hpre.
  - unfold AstNames.do_ast_names_impl.
    by rewrite do_ast_names_impl_lines_struct, find_kind_field_many.
Qed.

Lemma generate_names_first_error_witness :
  AstNames.generate "2024-01-01 00:00:00"
    ([Samples.shape; DStruct Samples.expr]
       ++ DStruct Samples.amb
       :: [DStruct (Struct.Build "Late" [Samples.marked "p"; Samples.marked "q";
                                         Samples.marked "r"] true ∅)])
  = Raise (ValueError "struct Amb has 2 fields marked #[kind] (expected 0 or 1)").
Proof.
  apply (generate_names_first_error _ [Samples.shape; DStruct Samples.expr]).
  - intros s' Hs'. rewrite !elem_of_cons, elem_of_nil in Hs'.
    destruct Hs' as [?|[[= ->]|[]]]; [done|].
    intros [_ Hc]. vm_compute in Hc. lia.
  - split; [reflexivity|]. vm_compute. lia.
Defined.

(** ** ast_deref.py: what the output depends on *)

(** X7: the deref generator reads nothing of a declaration but its name:
    two declaration lists with the same names in the same order give the
    same output, whatever their kinds, fields and attributes. *)
Theorem deref_output_depends_on_names (now : string) (ds1 ds2 : list Decl) :
  decl_name <$> ds1 = decl_name <$> ds2 →
  AstDeref.generate now ds1 = AstDeref.generate now ds2.
Proof.
  intros Hn. unfold AstDeref.generate. do 2 f_equal.
  set (g := λ n : string,
         Util.linewise
           [ "#[allow(unused)]"; "impl AstDeref for " +:+ n +:+ " {";
             "  type Target = Self;"; "  fn ast_deref(&self) -> &Self { self }"; "}" ]).
  assert (∀ ds : list Decl,
            AstDeref.do_ast_deref_impl <$> ds = g <$> (decl_name <$> ds)) as Hg.
  { intros ds. rewrite <-list_fmap_compose. by apply list_fmap_ext. }
  by rewrite !Hg, Hn.
Qed.

Lemma deref_output_depends_on_names_witness :
  AstDeref.generate "2024-01-01 00:00:00"
    [DStruct (Struct.Build "Span" [Samples.marked "lo"] true {[ "rewrite_seq_item" := None ]})]
  = AstDeref.generate "2024-01-01 00:00:00" [DOpaque Samples.span].
Proof. apply deref_output_depends_on_names. reflexivity. Defined.

(** ** Output for a longer declaration list *)

Lemma banner_nonempty (now : string) (blocks : list string) : banner now ++ blocks ≠ [].
Proof. done. Qed.

Lemma concat_emitted_nonempty (ds : list Decl) :
  Exists (λ d, ¬ is_custom d) ds → concat (ListNodeIds.emitted <$> ds) ≠ [].
Proof.
  induction 1 as [d ds Hd|d ds _ IH]; rewrite fmap_cons, concat_cons.
  - by rewrite (emitted_default d Hd).
  - by intros [_ ?]%app_eq_nil.
Qed.

(** X8: the text for a declaration list extended by further declarations
    is the text for the list, a newline, and the blocks of the further
    declarations joined by newlines: for the deref generator whenever
    there is a further declaration, for the child-node-id generator
    whenever one of them has no [custom] override. *)
Theorem generate_extends (now : string) (ds1 ds2 : list Decl) :
  (ds2 ≠ [] →
     AstDeref.generate now (ds1 ++ ds2) =
       AstDeref.generate now ds1 +:+ newline
         +:+ Util.linewise (AstDeref.do_ast_deref_impl <$> ds2))
  ∧ (Exists (λ d, ¬ is_custom d) ds2 →
       ListNodeIds.generate now (ds1 ++ ds2) =
         ListNodeIds.generate now ds1 +:+ newline
           +:+ Util.linewise (concat (ListNodeIds.emitted <$> ds2))).
Proof.
  split.
  - intros Hne. unfold AstDeref.generate, Util.linewise.
    rewrite fmap_app, (assoc_L (++)), join_app; [done|apply banner_nonempty|].
    by destruct ds2.
  - intros Hex. unfold ListNodeIds.generate, Util.linewise.
    rewrite fmap_app, concat_app, (assoc_L (++)), join_app;
      [done|apply banner_nonempty|by apply concat_emitted_nonempty].
Qed.

Lemma generate_extends_witness :
  ListNodeIds.generate "2024-01-01 00:00:00"
    ([Samples.shape] ++ [DOpaque Samples.node_id; DOpaque Samples.span]) =
    ListNodeIds.generate "2024-01-01 00:00:00" [Samples.shape] +:+ newline
      +:+ Util.linewise [ListNodeIds.dummy_impl (DOpaque Samples.span)].
Proof.
  apply (generate_extends _ [Samples.shape] [DOpaque Samples.node_id; DOpaque Samples.span]).
  apply Exists_cons_tl, Exists_cons_hd. unfold is_custom. vm_compute. discriminate.
Defined.

(** ** list_node_ids.py: declarations with the override *)

Lemma concat_emitted_filter (ds : list Decl) :
  concat (ListNodeIds.emitted <$>
            filter (λ d, decl_attrs d !! "list_node_ids" ≠ Some (Some "custom")) ds)
  = concat (ListNodeIds.emitted <$> ds).
Proof.
  induction ds as [|d ds IH]; [done|].
  destruct (decide (decl_attrs d !! "list_node_ids" = Some (Some "custom"))) as [Hd|Hd].
  - rewrite filter_cons_False by (by intros ?).
    by rewrite fmap_cons, concat_cons, (emitted_custom d Hd), IH.
  - rewrite filter_cons_True by done.
    by rewrite !fmap_cons, !concat_cons, IH.
Qed.

Lemma concat_emitted_custom (ds : list Decl) :
  Forall is_custom ds → concat (ListNodeIds.emitted <$> ds) = [].
Proof.
  induction 1 as [|d ds Hd _ IH]; [done|].
  by rewrite fmap_cons, concat_cons, (emitted_custom d Hd), IH.
Qed.

Lemma concat_emitted_blocks (ds : list Decl) :
  Forall (λ d, ¬ is_custom d) ds →
  concat (ListNodeIds.emitted <$> ds) =
    (λ d, if is_struct_or_enum d then ListNodeIds.list_impl d
          else ListNodeIds.dummy_impl d) <$> ds.
Proof.
  induction 1 as [|d ds Hd _ IH]; [done|].
  by rewrite !fmap_cons, concat_cons, (emitted_default d Hd), IH.
Qed.

(** X9: the child-node-id generator gives, for a declaration list, the
    text it gives for the list without the declarations that carry the
    [custom] override: the banner followed by one block for each of the
    other declarations, in their order, [list_impl] for a Struct or an
    Enum and [dummy_impl] otherwise; when every declaration carries the
    override, the text is the banner alone. *)
Theorem list_node_ids_skips_custom (now : string) (decls : list Decl) :
  ListNodeIds.generate now decls =
    ListNodeIds.generate now
      (filter (λ d, decl_attrs d !! "list_node_ids" ≠ Some (Some "custom")) decls)
  ∧ ListNodeIds.generate now decls =
      Util.linewise
        (banner now
           ++ ((λ d, if is_struct_or_enum d then ListNodeIds.list_impl d
                     else ListNodeIds.dummy_impl d)
                 <$> filter (λ d, decl_attrs d !! "list_node_ids" ≠ Some (Some "custom"))
                            decls))
  ∧ (Forall is_custom decls → ListNodeIds.generate now decls = Util.linewise (banner now)).
Proof.
  unfold ListNodeIds.generate. split_and!.
  - by rewrite concat_emitted_filter.
  - rewrite <-concat_emitted_filter, concat_emitted_blocks; [done|].
    apply Forall_forall. by intros d [? _]%list_elem_of_filter.
  - intros Hall. by rewrite concat_emitted_custom, app_nil_r.
Qed.

(** ** list_node_ids.py: the indented match of [list_impl] *)

Lemma no_line_boundary_app (a b : string) :
  no_line_boundary a = true → no_line_boundary b = true →
  no_line_boundary (a +:+ b) = true.
Proof.
  intros Ha Hb. induction a as [|c a IH]; [done|].
  rewrite app_cons_str. simpl in *.
  apply andb_true_iff in Ha as [-> Ha]. by apply IH.
Qed.

Lemma no_line_boundary_join (sep : string) (xs : list string) :
  no_line_boundary sep = true →
  Forall (λ x, no_line_boundary x = true) xs →
  no_line_boundary (join sep xs) = true.
Proof.
  intros Hsep. induction 1 as [|x xs Hx Hxs IH]; [done|].
  destruct xs as [|y xs]; [done|]. rewrite join_cons_cons.
  by repeat apply no_line_boundary_app.
Qed.

(** A text without line boundaries is one line. *)
Lemma splitlines_single_line (cur line : string) :
  no_line_boundary line = true →
  Textwrap.splitlines_keepends cur line =
    match cur +:+ line with
    | EmptyString => []
    | String _ _ => [cur +:+ line]
    end.
Proof.
  revert cur. induction line as [|c line IH]; intros cur Hb.
  - simpl. rewrite app_empty_r. by destruct cur.
  - simpl in Hb. apply andb_true_iff in Hb as [Hc Hl]. apply negb_true_iff in Hc.
    simpl Textwrap.splitlines_keepends.
    rewrite (is_line_boundary_CR c Hc), Hc, IH by done.
    by rewrite app_assoc_str.
Qed.

Lemma join_empty_cons (x : string) (rest : list string) :
  join "" (x :: rest) = x +:+ join "" rest.
Proof. destruct rest; [by rewrite join_singleton, app_empty_r|done]. Qed.

Lemma indent_join_cons (line prefix : string) (rest : list string) :
  no_line_boundary line = true → Textwrap.is_blank line = false → rest ≠ [] →
  Textwrap.indent (join newline (line :: rest)) prefix =
    (prefix +:+ line) +:+ newline +:+ Textwrap.indent (join newline rest) prefix.
Proof.
  intros Hb Hs Hr. rewrite join_cons_nonempty by done. unfold Textwrap.indent.
  change (newline +:+ join newline rest) with (String Textwrap.LF (join newline rest)).
  rewrite splitlines_line, fmap_cons, join_empty_cons by done.
  change ("" +:+ line +:+ String Textwrap.LF "") with (line +:+ newline).
  rewrite (is_blank_app_false _ _ Hs). by rewrite !app_assoc_str.
Qed.

(** Indenting lines that are neither blank nor broken indents each line. *)
Lemma indent_lines (prefix : string) (lines : list string) :
  Forall (λ l, no_line_boundary l = true ∧ Textwrap.is_blank l = false) lines →
  Textwrap.indent (join newline lines) prefix = join newline ((λ l, prefix +:+ l) <$> lines).
Proof.
  induction 1 as [|l lines [Hb Hs] Hl IH]; [done|].
  destruct lines as [|l' lines].
  - rewrite join_singleton. unfold Textwrap.indent.
    rewrite splitlines_single_line by done.
    change ("" +:+ l) with l. destruct l as [|c l]; [done|].
    cbn [fmap list_fmap join]. by rewrite Hs.
  - rewrite indent_join_cons, IH by done. by rewrite !fmap_cons, join_cons_cons.
Qed.

Lemma join_splice (sep : string) (xs ys zs : list string) :
  xs ≠ [] → ys ≠ [] → zs ≠ [] →
  join sep (xs ++ [join sep ys] ++ zs) = join sep (xs ++ ys ++ zs).
Proof.
  intros Hx Hy Hz.
  rewrite (join_app sep xs ([join sep ys] ++ zs)) by done.
  rewrite (join_app sep [join sep ys] zs) by done.
  rewrite (join_app sep xs (ys ++ zs)) by (by destruct ys).
  by rewrite (join_app sep ys zs).
Qed.

Lemma struct_pattern_single_line (vp : Struct.t * string) :
  single_line_variant vp →
  no_line_boundary (Util.struct_pattern_default vp.1 vp.2) = true.
Proof.
  destruct vp as [v path]. intros [Hp Hf]. simpl in *.
  unfold Util.struct_pattern_default, Util.struct_pattern.
  destruct (Struct.is_tuple v); cbn [negb].
  - destruct (Nat.eqb _ 0); [done|].
    repeat (apply no_line_boundary_app; [try done|]); [|done].
    apply no_line_boundary_join; [done|]. apply Forall_fmap.
    eapply Forall_impl; [exact Hf|]. intros f Hn. simpl.
    by repeat (apply no_line_boundary_app; [try done|]).
  - repeat (apply no_line_boundary_app; [try done|]); [|done].
    apply no_line_boundary_join; [done|]. apply Forall_fmap.
    eapply Forall_impl; [exact Hf|]. intros f Hn. simpl.
    by repeat (apply no_line_boundary_app; [try done|]).
Qed.

Lemma arm_lines_single_line (vp : Struct.t * string) :
  single_line_variant vp →
  Forall (λ l, no_line_boundary l = true ∧ Textwrap.is_blank l = false)
         (ListNodeIds.arm_lines vp).
Proof.
  intros Hvp. pose proof (struct_pattern_single_line vp Hvp) as Hpat.
  destruct vp as [v path]. destruct Hvp as [Hp Hf]. simpl in *.
  unfold ListNodeIds.arm_lines. apply Forall_cons. split.
  { split; [|done]. by repeat (apply no_line_boundary_app; [try done|]). }
  apply Forall_app. split; [|by apply Forall_singleton].
  apply Forall_fmap. eapply Forall_impl; [exact Hf|]. intros f Hn. simpl.
  split; [|done]. unfold ListNodeIds.call_line.
  by repeat (apply no_line_boundary_app; [try done|]).
Qed.

Lemma list_rec_lines_single_line (se : Decl) (target : string) :
  no_line_boundary target = true →
  Forall single_line_variant (variants_paths se) →
  Forall (λ l, no_line_boundary l = true ∧ Textwrap.is_blank l = false)
         (ListNodeIds.list_rec_lines se target).
Proof.
  intros Ht Hv. unfold ListNodeIds.list_rec_lines. apply Forall_cons. split.
  { split; [|done]. by repeat (apply no_line_boundary_app; [try done|]). }
  apply Forall_app. split; [|by apply Forall_singleton].
  apply Forall_concat, Forall_fmap.
  eapply Forall_impl; [exact Hv|]. intros vp. apply arm_lines_single_line.
Qed.

(** X10: when the paths and field names of the variants hold no line
    boundary, the text of [list_impl] is, line by line, the three opening
    lines of the implementation, every line of [list_rec] moved right by
    four spaces, and the two closing lines. *)
Theorem list_impl_indents_match (se : Decl) :
  Forall single_line_variant (variants_paths se) →
  ListNodeIds.list_impl se =
    Util.linewise
      ([ "#[allow(unused, non_shorthand_field_patterns)]";
         "impl ListNodeIds for " +:+ decl_name se +:+ " {";
         "  fn add_node_ids(&self, node_id_list: &mut Vec<NodeId>) {" ]
         ++ ((λ l, "    " +:+ l) <$> ListNodeIds.list_rec_lines se "self")
         ++ [ "  }"; "}" ]).
Proof.
  intros Hv. unfold ListNodeIds.list_impl, ListNodeIds.list_impl_lines,
    ListNodeIds.list_rec, Util.linewise.
  rewrite indent_lines by (by apply list_rec_lines_single_line).
  by rewrite <-join_splice.
Qed.

Lemma list_impl_indents_match_witness :
  ListNodeIds.list_impl Samples.shape =
    Util.linewise
      ([ "#[allow(unused, non_shorthand_field_patterns)]";
         "impl ListNodeIds for Shape {";
         "  fn add_node_ids(&self, node_id_list: &mut Vec<NodeId>) {" ]
         ++ ((λ l, "    " +:+ l) <$> ListNodeIds.list_rec_lines Samples.shape "self")
         ++ [ "  }"; "}" ]).
Proof.
  apply (list_impl_indents_match Samples.shape).
  change (Forall single_line_variant
            [(Samples.circle, "Shape::Circle"); (Samples.square, "Shape::Square")]).
  unfold single_line_variant.
  repeat first [apply List.Forall_nil | apply List.Forall_cons | split | reflexivity].
Defined.

(** ** util.py: what a pattern binds, for any suffix and binding mode *)

Lemma length_app_str (a b : string) :
  String.length (a +:+ b) = String.length a + String.length b.
Proof. induction a as [|c a IH]; [done|]. rewrite app_cons_str. simpl. by rewrite IH. Qed.

Lemma app_inj_suffix (a b s : string) : a +:+ s = b +:+ s → a = b.
Proof.
  revert b. induction a as [|c a IH]; intros [|d b] H.
  - done.
  - apply (f_equal String.length) in H. change ("" +:+ s) with s in H.
    rewrite app_cons_str in H. simpl in H. rewrite length_app_str in H. lia.
  - apply (f_equal String.length) in H. change ("" +:+ s) with s in H.
    rewrite app_cons_str in H. simpl in H. rewrite length_app_str in H. lia.
  - rewrite !app_cons_str in H. injection H as -> H. f_equal. by apply IH.
Qed.

Lemma render_binding_pattern (v : Struct.t) (path suffix bind_mode : string) :
  Rust.render (binding_pattern v path suffix bind_mode)
  = Util.struct_pattern v path suffix bind_mode.
Proof.
  unfold binding_pattern, Util.struct_pattern.
  destruct (Struct.is_tuple v); cbn [negb].
  - destruct (Struct.fields v) as [|f fields] eqn:Hf; [done|].
    cbn [Rust.render length Nat.eqb]. unfold Util.tuple_fields, Util.comma_sep.
    do 3 f_equal. apply (f_equal (join ", ")). rewrite <-list_fmap_compose.
    by apply list_fmap_ext.
  - cbn [Rust.render]. unfold Util.struct_fields, Util.comma_sep.
    do 3 f_equal. apply (f_equal (join ", ")). rewrite <-list_fmap_compose.
    by apply list_fmap_ext.
Qed.

Lemma bindings_binding_pattern (v : Struct.t) (path suffix bind_mode : string) :
  Rust.bindings (binding_pattern v path suffix bind_mode)
  = (λ f, Rust.Bind bind_mode (Field.name f +:+ suffix)) <$> Struct.fields v.
Proof.
  unfold binding_pattern. destruct (Struct.is_tuple v); cbn [negb].
  - by destruct (Struct.fields v).
  - cbn [Rust.bindings]. rewrite <-list_fmap_compose. by apply list_fmap_ext.
Qed.

(** X11: for every suffix and binding mode, the text of [struct_pattern]
    is the rendering of a pattern for the given path that binds, in the
    given mode and in declaration order, one identifier per field, the
    field's name followed by the suffix; fields of distinct names are
    bound to distinct identifiers. *)
Theorem struct_pattern_binds (v : Struct.t) (path suffix bind_mode : string) :
  ∃ p : Rust.pattern,
    Rust.render p = Util.struct_pattern v path suffix bind_mode
    ∧ Rust.bound p = (λ f, Field.name f +:+ suffix) <$> Struct.fields v
    ∧ Forall (λ b, Rust.mode b = bind_mode) (Rust.bindings p)
    ∧ (NoDup (Field.name <$> Struct.fields v) → NoDup (Rust.bound p)).
Proof.
  exists (binding_pattern v path suffix bind_mode).
  assert (Rust.bound (binding_pattern v path suffix bind_mode)
          = (λ n, n +:+ suffix) <$> (Field.name <$> Struct.fields v)) as Hb.
  { unfold Rust.bound. rewrite bindings_binding_pattern, <-!list_fmap_compose.
    by apply list_fmap_ext. }
  split_and!.
  - apply render_binding_pattern.
  - rewrite Hb, <-list_fmap_compose. by apply list_fmap_ext.
  - rewrite bindings_binding_pattern. by apply Forall_fmap, Forall_true.
  - intros Hnd. rewrite Hb. apply NoDup_fmap_2; [|done].
    intros a b. apply app_inj_suffix.
Qed.

(** ** ast_names.py: the field a struct's arm refers to *)

(** X12: the lines the name generator yields for a Struct are the opening
    of the implementation, the pattern line, the line returning the
    struct's name, at most one line appending the name of a kind field's
    value, and the closing lines; the field that line reads from [self]
    is a field of the struct. *)
Theorem ast_names_struct_suffix_names_a_field (s : Struct.t) (lines : list string) :
  AstNames.do_ast_names_impl_lines (DStruct s) = Ok lines →
  ∃ suffix_lines,
    lines = names_header (DStruct s)
              ++ [pattern_line s (Struct.name s); name_line s]
              ++ suffix_lines ++ ["      }"] ++ names_footer
    ∧ (suffix_lines = []
       ∨ ∃ f, f ∈ Struct.fields s ∧ Field.name f ≠ ""
              ∧ suffix_lines = [kind_suffix_line (Field.name f)]).
Proof.
  rewrite do_ast_names_impl_lines_struct.
  destruct (Util.find_kind_field s) as [kf|e] eqn:Hk; [|done].
  intros [= <-]. eexists. split; [done|].
  destruct kf as [[|c k]|]; [by left| |by left]. right.
  unfold Util.find_kind_field in Hk.
  destruct (has_attr "no_kind" (Struct.attrs s)); [done|]. cbv zeta in Hk.
  assert (String c k ∈ Field.name <$> Struct.fields s)
    as (f & Hf & Hin)%list_elem_of_fmap.
  { destruct (Util.marked_fields s) as [|x [|y l]] eqn:Hm;
      cbn [length Nat.eqb Nat.ltb Nat.leb lookup list_lookup] in Hk.
    - injection Hk as Hk%head_Some_elem_of.
      apply list_elem_of_fmap in Hk as (f & -> & [_ Hin]%list_elem_of_filter).
      by apply list_elem_of_fmap_2.
    - injection Hk as Hx.
      assert (String c k ∈ Util.marked_fields s) as Hin' by (rewrite Hm, <-Hx; left).
      unfold Util.marked_fields in Hin'.
      apply list_elem_of_fmap in Hin' as (f & Hf & [_ Hin]%list_elem_of_filter).
      rewrite Hf. by apply list_elem_of_fmap_2.
    - done. }
  exists f. rewrite <-Hf. done.
Qed.

Lemma ast_names_struct_suffix_names_a_field_witness :
  ∃ suffix_lines,
    [ "#[allow(unused, non_shorthand_field_patterns)]";
      "impl AstName for Expr {";
      "  fn ast_name(&self) -> String {";
      "    match self {";
      "      &Expr { id: ref id, node: ref node } => {";
      name_line Samples.expr;
      kind_suffix_line "node";
      "      }";
      "    }"; "  }"; "}" ]
    = names_header (DStruct Samples.expr)
        ++ [pattern_line Samples.expr (Struct.name Samples.expr); name_line Samples.expr]
        ++ suffix_lines ++ ["      }"] ++ names_footer
    ∧ (suffix_lines = []
       ∨ ∃ f, f ∈ Struct.fields Samples.expr ∧ Field.name f ≠ ""
              ∧ suffix_lines = [kind_suffix_line (Field.name f)]).
Proof. apply (ast_names_struct_suffix_names_a_field Samples.expr). reflexivity. Defined.

(** ** util.py: the texts [snake] leaves as they are *)

(** X13: [snake] returns its argument unchanged exactly when the argument
    holds no capital letter and does not start with an underscore. *)
Theorem snake_fixed_point (s : string) :
  Util.snake s = s ↔ no_caps s = true ∧ starts_with_underscore s = false.
Proof.
  split.
  - intros Hs.
    assert (no_caps s = true) as Hn.
    { rewrite <-Hs, snake_unfold. pose proof (no_caps_caps_sub s) as H.
      destruct (Util.caps_sub s) as [|c r]; [done|].
      destruct (Ascii.eqb c "_"); [|done].
      simpl in H. by apply andb_true_iff in H as [_ ?]. }
    split; [done|].
    rewrite snake_unfold, caps_sub_no_caps in Hs by done.
    destruct s as [|c r]; [done|]. rewrite starts_with_underscore_cons.
    destruct (Ascii.eqb c "_"); [|done].
    apply (f_equal String.length) in Hs. simpl in Hs. lia.
  - intros [Hn Hu]. rewrite snake_unfold, caps_sub_no_caps by done.
    destruct s as [|c r]; [done|].
    rewrite starts_with_underscore_cons in Hu. by rewrite Hu.
Qed.
